(** * The [foundation] Conan recipe ([conanfile.py])

    A shallow embedding of the recipe class [FoundationRecipe] and of the
    fragment of Python it is written in, followed by the properties of its
    lifecycle methods: [set_version], [build_requirements], [package_id],
    [export], [source], [layout], [build] and [package]. *)

From Stdlib Require Import String Ascii List ZArith Lia.
From stdpp Require Import base strings gmap list.

Local Open Scope string_scope.
Local Set Warnings "-register-all".

(** ** Python values and the operations the recipe applies to them *)

Module Py.

(** Exceptions that can reach the caller of a recipe method. [External]
    stands for whatever a collaborator raises (a [ConanException], a
    failed subprocess, ...); the recipe never inspects it. *)
Inductive exn : Type :=
| KeyError (key : string)
| TypeError
| AttributeError
| External (msg : string).

(** The values a YAML document (and so [conan_data]) can hold. A [dict]
    is kept as an association list in insertion order, as Python does. *)
Inductive value : Type :=
| VNone
| VBool (b : bool)
| VInt (z : Z)
| VStr (s : string)
| VList (l : list value)
| VDict (d : list (string * value)).

Definition result (A : Type) : Type := (exn + A)%type.

(** Truth value testing, as [if v:] does it. *)
Definition truthy (v : value) : bool :=
  match v with
  | VNone => false
  | VBool b => b
  | VInt z => negb (Z.eqb z 0)
  | VStr s => negb (String.eqb s "")
  | VList l => match l with [] => false | _ :: _ => true end
  | VDict d => match d with [] => false | _ :: _ => true end
  end.

(** [slice_from n s] is [s[n:]] for a literal [n >= 0]: the characters
    from index [n] on, and the empty string once [n] reaches the end. *)
Fixpoint slice_from (n : nat) (s : string) : string :=
  match n, s with
  | O, _ => s
  | S _, EmptyString => EmptyString
  | S n', String _ rest => slice_from n' rest
  end.

Fixpoint dict_get (k : string) (d : list (string * value)) : option value :=
  match d with
  | [] => None
  | (k', v) :: rest => if String.eqb k k' then Some v else dict_get k rest
  end.

(** [d[k] = v] on a dict: an existing key keeps its place, a new one goes
    last. *)
Fixpoint dict_set (k : string) (v : value) (d : list (string * value))
  : list (string * value) :=
  match d with
  | [] => [(k, v)]
  | (k', v') :: rest =>
      if String.eqb k k' then (k, v) :: rest
      else (k', v') :: dict_set k v rest
  end.

(** [x[k]] with a string key: only a dict can be subscripted so. *)
Definition getitem (x : value) (k : string) : result value :=
  match x with
  | VDict d =>
      match dict_get k d with
      | Some v => inr v
      | None => inl (KeyError k)
      end
  | _ => inl TypeError
  end.

(** [x[k] = v] with a string key. *)
Definition setitem (x : value) (k : string) (v : value) : result value :=
  match x with
  | VDict d => inr (VDict (dict_set k v d))
  | _ => inl TypeError
  end.

(** [x.get(k, default)]: a method of dicts only. *)
Definition get_default (x : value) (k : string) (default : value)
  : result value :=
  match x with
  | VDict d =>
      match dict_get k d with
      | Some v => inr v
      | None => inr default
      end
  | _ => inl AttributeError
  end.

(** Reading a key without raising: [None] when [x] is no dict or has no
    such key. Used to state what a store holds. *)
Definition lookup_key (k : string) (x : value) : option value :=
  match x with
  | VDict d => dict_get k d
  | _ => None
  end.

End Py.
Import Py.

(** ** The collaborators of the recipe

    The recipe drives a version-control client, Conan's environment reader
    and the CMake helper. None of them belongs to this repository, so they
    enter as an interface over an abstract state [W] of the outside world
    (work trees, remotes, build trees). Queries read [W]; commands may
    change it and may fail after having changed it. *)

Class Collaborators (W : Type) : Type := {
  (** [conans.tools.Git(folder).run(command)]: the command's output. *)
  git_run : string -> string -> W -> result string;
  (** [conan.tools.scm.Git(self, folder).get_url_and_commit()]. *)
  git_get_url_and_commit : string -> W -> result (string * string);
  (** [Git(self).clone(url, target)] from the current directory. *)
  git_clone : value -> string -> W -> result unit * W;
  (** [Git(self).checkout(commit)] in the current directory. *)
  git_checkout : value -> W -> result unit * W;
  (** The commit the work tree of the current directory is at, if any. *)
  git_head : W -> option string;
  (** [conans.tools.get_env(name, default)] over [os.environ]. *)
  get_env : string -> value -> gmap string string -> value;
  (** [cmake_layout(self)]. *)
  cmake_layout : W -> result unit * W;
  (** [CMake(self)]: the constructor reads the presets the generators
      wrote and raises when it cannot; it changes nothing. *)
  cmake_new : W -> result unit;
  (** The three steps of a constructed [CMake(self)]. *)
  cmake_configure : W -> result unit * W;
  cmake_build : W -> result unit * W;
  cmake_install : W -> result unit * W;
}.

(** Every call the recipe makes on a collaborator, in the order made. The
    constructors of the two version-control clients only store their
    arguments and are not listed; the constructor of the CMake helper can
    fail and is. *)
Inductive call : Type :=
| GitRun (folder command : string)
| GitGetUrlAndCommit (folder : string)
| GitClone (url : value) (target : string)
| GitCheckout (commit : value)
| CMakeLayout
| CMakeNew
| CMakeConfigure
| CMakeBuild
| CMakeInstall.

Definition is_clone (c : call) : bool :=
  match c with
  | GitClone _ _ => true
  | _ => false
  end.

(** ** Conan's side of the recipe object *)

Module Conan.

(** The identity info a package id is computed from. *)
Record Info : Type := mkInfo {
  info_settings : list (string * string);
  info_options : list (string * string);
  info_requires : list string;
}.

(** Modelled from the spec: [self.info.clear()] is Conan's, not this
    repository's; section 4.5 has it clear all settings-derived
    fingerprint information from the package's identity info. *)
Definition clear (i : Info) : Info :=
  {| info_settings := [];
     info_options := info_options i;
     info_requires := info_requires i |}.

(** Modelled from the spec: the merge of [update_conandata] (sections 4.2
    and 6: the store is merge-updated, keys already present are kept), as
    Conan's helper of that name does it, key by key of the update [u] and
    recursively where the update holds a dict:
    [d[k] = recursive_dict_update(d.get(k, {}), v)], else [d[k] = v]. *)
Fixpoint recursive_dict_update (u : value) (d : value) {struct u}
  : result value :=
  match u with
  | VDict items =>
      (fix each (items : list (string * value)) (d : value) {struct items}
         : result value :=
         match items with
         | [] => inr d
         | (k, v) :: rest =>
             match v with
             | VDict _ =>
                 match get_default d k (VDict []) with
                 | inl e => inl e
                 | inr sub =>
                     match recursive_dict_update v sub with
                     | inl e => inl e
                     | inr merged =>
                         match setitem d k merged with
                         | inl e => inl e
                         | inr d' => each rest d'
                         end
                     end
                 end
             | _ =>
                 match setitem d k v with
                 | inl e => inl e
                 | inr d' => each rest d'
                 end
             end
         end) items d
  | _ => inr d
  end.

End Conan.
Import Conan.

(** ** The recipe object and a recipe evaluation *)

(** The attributes of a [FoundationRecipe] instance that its methods read
    or write. [version] is [None] until [set_version] has run, as on
    [ConanFile]; [requirements] holds what [test_requires] has declared. *)
Record Recipe : Type := mkRecipe {
  name : string;
  version : option string;
  author : string;
  url : string;
  description : string;
  settings : list string;
  generators : list string;
  recipe_folder : string;
  conan_data : value;
  info : Info;
  requirements : list string;
}.

(** The class body of [FoundationRecipe], instantiated by Conan with the
    recipe's folder, the loaded [conandata.yml] and the identity info. *)
Definition FoundationRecipe (folder : string) (data : value) (i : Info)
  : Recipe :=
  {| name := "foundation";
     version := None;
     author := "M. Emery Goss <m.goss792@gmail.com>";
     url := "https://github.com/mry792/foundation.git";
     description :=
       "Collection of standard utilities. All support compiling for embedded "
       ++ "systems.";
     settings := ["compiler"; "build_type"];
     generators := ["virtualenv"; "CMakeDeps"; "CMakeToolchain"];
     recipe_folder := folder;
     conan_data := data;
     info := i;
     requirements := [] |}.

(** The identity info Conan hands to [package_id]: one value per declared
    setting, and neither options nor requirements, as the recipe declares
    none. *)
Definition settings_info (compiler build_type : string) : Info :=
  {| info_settings := [("compiler", compiler); ("build_type", build_type)];
     info_options := [];
     info_requires := [] |}.

Section Evaluation.

Context {W : Type} `{Collaborators W}.

(** What a recipe method runs in: the recipe object, the process
    environment, the [conandata.yml] of the export folder, the outside
    world, and two logs kept for the statements below: the collaborator
    calls made and the attributes of [self] assigned, oldest first. *)
Record Session : Type := mkSession {
  self : Recipe;
  environ : gmap string string;
  conandata_yml : value;
  world : W;
  calls : list call;
  assigned : list (string * value);
}.

(** A method either returns or raises, and leaves a session behind in
    both cases. *)
Definition M (A : Type) : Type := Session -> result A * Session.

Definition ret {A : Type} (a : A) : M A := fun st => (inr a, st).

Definition bind {A B : Type} (m : M A) (k : A -> M B) : M B :=
  fun st =>
    match m st with
    | (inl e, st') => (inl e, st')
    | (inr a, st') => k a st'
    end.

Definition lift {A : Type} (r : result A) : M A :=
  fun st => (r, st).

Definition with_self (f : Recipe -> Recipe) (st : Session) : Session :=
  {| self := f (self st); environ := environ st;
     conandata_yml := conandata_yml st; world := world st;
     calls := calls st; assigned := assigned st |}.

Definition with_world (w : W) (st : Session) : Session :=
  {| self := self st; environ := environ st;
     conandata_yml := conandata_yml st; world := w;
     calls := calls st; assigned := assigned st |}.

Definition with_conandata_yml (d : value) (st : Session) : Session :=
  {| self := self st; environ := environ st;
     conandata_yml := d; world := world st;
     calls := calls st; assigned := assigned st |}.

Definition log_call (c : call) (st : Session) : Session :=
  {| self := self st; environ := environ st;
     conandata_yml := conandata_yml st; world := world st;
     calls := calls st ++ [c]; assigned := assigned st |}.

Definition log_assigned (a : string) (v : value) (st : Session) : Session :=
  {| self := self st; environ := environ st;
     conandata_yml := conandata_yml st; world := world st;
     calls := calls st; assigned := assigned st ++ [(a, v)] |}.

Definition set_version_field (v : string) (r : Recipe) : Recipe :=
  {| name := name r; version := Some v; author := author r; url := url r;
     description := description r; settings := settings r;
     generators := generators r; recipe_folder := recipe_folder r;
     conan_data := conan_data r; info := info r;
     requirements := requirements r |}.

Definition set_conan_data (d : value) (r : Recipe) : Recipe :=
  {| name := name r; version := version r; author := author r; url := url r;
     description := description r; settings := settings r;
     generators := generators r; recipe_folder := recipe_folder r;
     conan_data := d; info := info r;
     requirements := requirements r |}.

Definition map_info (f : Info -> Info) (r : Recipe) : Recipe :=
  {| name := name r; version := version r; author := author r; url := url r;
     description := description r; settings := settings r;
     generators := generators r; recipe_folder := recipe_folder r;
     conan_data := conan_data r; info := f (info r);
     requirements := requirements r |}.

Definition add_requirement (ref : string) (r : Recipe) : Recipe :=
  {| name := name r; version := version r; author := author r; url := url r;
     description := description r; settings := settings r;
     generators := generators r; recipe_folder := recipe_folder r;
     conan_data := conan_data r; info := info r;
     requirements := requirements r ++ [ref] |}.

Notation "'let*' x ':=' m 'in' k" := (bind m (fun x => k))
  (at level 10, x name, m at level 100, k at level 200).

(** Reading an attribute of [self]. *)
Definition attr {A : Type} (f : Recipe -> A) : M A :=
  fun st => (inr (f (self st)), st).

(** [self.version = v]. *)
Definition assign_version (v : string) : M unit :=
  fun st =>
    (inr tt, log_assigned "version" (VStr v)
               (with_self (set_version_field v) st)).

(** A query on a collaborator: logged, answered from the world. *)
Definition query {A : Type} (c : call) (q : W -> result A) : M A :=
  fun st => (q (world st), log_call c st).

(** A command on a collaborator: logged, then run on the world, which
    keeps what the command did to it also when the command fails. *)
Definition command (c : call) (f : W -> result unit * W) : M unit :=
  fun st =>
    let st1 := log_call c st in
    let (r, w) := f (world st1) in
    (r, with_world w st1).

(** [self.test_requires(ref)]: Conan adds [ref] to the requirements of the
    recipe. *)
Definition test_requires (ref : string) : M unit :=
  fun st => (inr tt, with_self (add_requirement ref) st).

(** [update_conandata(self, data)]: Conan loads the [conandata.yml] of the
    export folder, merges [data] into it and saves the result; nothing is
    saved when the merge raises. *)
Definition update_conandata (data : value) : M unit :=
  fun st =>
    match recursive_dict_update data (conandata_yml st) with
    | inl e => (inl e, st)
    | inr d => (inr tt, with_conandata_yml d st)
    end.

(** *** The methods of [FoundationRecipe] *)

Definition _run_tests : M value :=
  fun st =>
    (inr (get_env "CONAN_RUN_TESTS" (VBool false) (environ st)), st).

Definition package_id : M unit :=
  fun st => (inr tt, with_self (map_info clear) st).

Definition set_version : M unit :=
  let* folder := attr recipe_folder in
  let* tag := query (GitRun folder "describe --tags")
                    (git_run folder "describe --tags") in
  assign_version (slice_from 1 tag).

Definition build_requirements : M unit :=
  let* run_tests := _run_tests in
  if truthy run_tests then
    let* _ := test_requires "catch2/2.13.9" in
    test_requires "trompeloeil/42"
  else ret tt.

Definition export : M unit :=
  let* folder := attr recipe_folder in
  let* scm := query (GitGetUrlAndCommit folder)
                    (git_get_url_and_commit folder) in
  let (scm_url, scm_commit) := scm in
  update_conandata
    (VDict [("source", VDict [("commit", VStr scm_commit);
                               ("url", VStr scm_url)])]).

Definition source : M unit :=
  let* data := attr conan_data in
  let* source := lift (getitem data "source") in
  let* source_url := lift (getitem source "url") in
  let* _ := command (GitClone source_url ".") (git_clone source_url ".") in
  let* source_commit := lift (getitem source "commit") in
  command (GitCheckout source_commit) (git_checkout source_commit).

Definition layout : M unit :=
  command CMakeLayout cmake_layout.

Definition build : M unit :=
  let* cmake := query CMakeNew cmake_new in
  let* _ := command CMakeConfigure cmake_configure in
  command CMakeBuild cmake_build.

Definition package : M unit :=
  let* cmake := query CMakeNew cmake_new in
  command CMakeInstall cmake_install.

(** The lifecycle methods by name, for statements about all of them. *)
Inductive method : Type :=
| PackageId
| SetVersion
| BuildRequirements
| Export
| Source
| Layout
| Build
| Package.

Definition run (m : method) : M unit :=
  match m with
  | PackageId => package_id
  | SetVersion => set_version
  | BuildRequirements => build_requirements
  | Export => export
  | Source => source
  | Layout => layout
  | Build => build
  | Package => package
  end.

(** *** What Conan does between the methods *)

(** A recipe evaluated from its export folder has the [conandata.yml]
    found there as its [conan_data]. *)
Definition load_conan_data (st : Session) : Session :=
  with_self (set_conan_data (conandata_yml st)) st.

(** The requirements the recipe holds. *)
Definition declared (st : Session) : list string :=
  requirements (self st).

(** The session in which Conan has handed the identity info [i] to the
    recipe. *)
Definition with_info (i : Info) (st : Session) : Session :=
  with_self (map_info (fun _ => i)) st.

(** The identity fields of the recipe other than its version. *)
Definition identity (r : Recipe) : string * string * string * string :=
  (name r, author r, url r, description r).

(** [st'] has the identity fields, the version and the assignment log of
    [st]; a computation is quiet when it always ends in such a session. *)
Definition same_identity (st st' : Session) : Prop :=
  identity (self st') = identity (self st) /\
  version (self st') = version (self st) /\
  assigned st' = assigned st.

Definition quiet {A : Type} (m : M A) : Prop :=
  forall st, same_identity st (m st).2.

(** What the describe-tags query of [set_version] answers in a session,
    and the session once the query has been made. *)
Definition describe (st : Session) : result string :=
  git_run (recipe_folder (self st)) "describe --tags" (world st).

Definition described (st : Session) : Session :=
  log_call (GitRun (recipe_folder (self st)) "describe --tags") st.

(** The test toggle: how [if self._run_tests:] goes in this session. *)
Definition toggle (st : Session) : bool :=
  truthy (get_env "CONAN_RUN_TESTS" (VBool false) (environ st)).

(** Whether [store['source']['commit']] can be read. *)
Definition has_source_commit (store : value) : bool :=
  match lookup_key "source" store with
  | Some s =>
      match lookup_key "commit" s with
      | Some _ => true
      | None => false
      end
  | None => false
  end.

(** Whether some clone has been asked of the version-control client. *)
Definition cloned_anything (st : Session) : bool :=
  existsb is_clone (calls st).

(** Cloning [u] into the current directory, then checking out [c]: what
    [source] is to do with a provenance record. *)
Definition clone_and_checkout (u c : value) : M unit :=
  let* _ := command (GitClone u ".") (git_clone u ".") in
  command (GitCheckout c) (git_checkout c).

(** [source] failed for a missing key and asked for no clone. *)
Definition fails_without_clone (st : Session) : Prop :=
  (exists k, (source st).1 = inl (KeyError k)) /\
  cloned_anything (source st).2 = false.

(** What is assumed of the version-control client where a statement
    speaks of the commit a work tree is at: a checkout that succeeds
    leaves the work tree at the commit asked for. *)
Definition checkout_sets_head : Prop :=
  forall (c : string) (w w' : W),
    git_checkout (VStr c) w = (inr tt, w') -> git_head w' = Some c.

(** What the url-and-commit query of [export] answers in a session. *)
Definition captured (st : Session) : result (string * string) :=
  git_get_url_and_commit (recipe_folder (self st)) (world st).

(** The update [export] hands to [update_conandata]. *)
Definition provenance (scm_url scm_commit : string) : value :=
  VDict [("source", VDict [("commit", VStr scm_commit);
                            ("url", VStr scm_url)])].

End Evaluation.

Arguments Session W : clear implicits.
Arguments M W A : clear implicits.

(** ** A scripted stand-in for the collaborators

    Enough of a version-control client, of [get_env] and of CMake to run
    the recipe on concrete inputs: the answers of the two queries are
    scripted, a remote is a url with the commits it holds, and the work
    tree of the current directory is the remote it was cloned from and the
    commit it is at. *)

Module Fake.

Record World : Type := mkWorld {
  describe_tags : result string;
  url_and_commit : result (string * string);
  remotes : list (string * list string);
  cloned : option string;
  head : option string;
}.

Fixpoint commits_of (u : string) (rs : list (string * list string))
  : option (list string) :=
  match rs with
  | [] => None
  | (u', cs) :: rest => if String.eqb u u' then Some cs else commits_of u rest
  end.

Fixpoint mem (c : string) (cs : list string) : bool :=
  match cs with
  | [] => false
  | c' :: rest => String.eqb c c' || mem c rest
  end.

Definition run_command (folder command : string) (w : World)
  : result string :=
  if String.eqb command "describe --tags" then describe_tags w
  else inl (External "unknown command").

Definition clone (u : value) (target : string) (w : World)
  : result unit * World :=
  match u with
  | VStr u' =>
      match commits_of u' (remotes w) with
      | Some _ =>
          (inr tt,
           {| describe_tags := describe_tags w;
              url_and_commit := url_and_commit w;
              remotes := remotes w; cloned := Some u'; head := None |})
      | None => (inl (External "repository not found"), w)
      end
  | _ => (inl (External "repository not found"), w)
  end.

Definition checkout (c : value) (w : World) : result unit * World :=
  match c, cloned w with
  | VStr c', Some u =>
      match commits_of u (remotes w) with
      | Some cs =>
          if mem c' cs then
            (inr tt,
             {| describe_tags := describe_tags w;
                url_and_commit := url_and_commit w;
                remotes := remotes w; cloned := cloned w;
                head := Some c' |})
          else (inl (External "unknown revision"), w)
      | None => (inl (External "unknown revision"), w)
      end
  | _, _ => (inl (External "not a git repository"), w)
  end.

(** A boolean default turns a set variable into a boolean: true for ["1"]
    and ["True"]. *)
Definition read_env (name : string) (default : value)
    (env : gmap string string) : value :=
  match env !! name with
  | None => default
  | Some s =>
      match default with
      | VBool _ => VBool (String.eqb s "1" || String.eqb s "True")
      | _ => VStr s
      end
  end.

Definition cmake_ok (w : World) : result unit * World := (inr tt, w).

#[global] Instance collaborators : Collaborators World := {
  git_run := run_command;
  git_get_url_and_commit := fun _ w => url_and_commit w;
  git_clone := clone;
  git_checkout := checkout;
  git_head := head;
  get_env := read_env;
  cmake_layout := cmake_ok;
  cmake_new := fun _ => inr tt;
  cmake_configure := cmake_ok;
  cmake_build := cmake_ok;
  cmake_install := cmake_ok;
}.

(** A checkout of the recipe's repository at the tag [tag], with one
    remote holding commit [commit]. *)
Definition tagged (tag u commit : string) : World :=
  {| describe_tags := inr tag;
     url_and_commit := inr (u, commit);
     remotes := [(u, [commit])];
     cloned := None;
     head := None |}.

(** A folder that is no checkout: both queries fail. *)
Definition untracked : World :=
  {| describe_tags := inl (External "fatal: No names found");
     url_and_commit := inl (External "not a git repository");
     remotes := [];
     cloned := None;
     head := None |}.

(** A session on a freshly instantiated recipe. *)
Definition session (w : World) (env : gmap string string) (store : value)
  : Session World :=
  {| self := FoundationRecipe "/recipe" store (settings_info "gcc" "Release");
     environ := env;
     conandata_yml := store;
     world := w;
     calls := [];
     assigned := [] |}.

(** The checkout of scenario 2: commit [abc123] of the remote
    [https://example/repo.git], tagged [v2.3.1], with a store that already
    holds a [patches] entry. *)
Definition example_store : value :=
  VDict [("patches", VList [VStr "fix.patch"])].

Definition example : Session World :=
  session (tagged "v2.3.1" "https://example/repo.git" "abc123") ∅
    example_store.

(** A recipe whose store has the url of the provenance record but not
    its commit. *)
Definition without_commit : Session World :=
  session (tagged "v2.3.1" "https://example/repo.git" "abc123") ∅
    (VDict [("source", VDict [("url", VStr "https://example/repo.git")])]).

(** A CMake whose configure step fails, with the version-control client
    and [get_env] as above. *)
Definition cmake_fails (w : World) : result unit * World :=
  (inl (External "configure failed"), w).

Definition failing_configure : Collaborators World :=
  {| git_run := run_command;
     git_get_url_and_commit := fun _ w => url_and_commit w;
     git_clone := clone;
     git_checkout := checkout;
     git_head := head;
     get_env := read_env;
     cmake_layout := cmake_ok;
     cmake_new := fun _ => inr tt;
     cmake_configure := cmake_fails;
     cmake_build := cmake_ok;
     cmake_install := cmake_ok |}.

(** A CMake that cannot be constructed: the presets are missing. *)
Definition missing_presets : Collaborators World :=
  {| git_run := run_command;
     git_get_url_and_commit := fun _ w => url_and_commit w;
     git_clone := clone;
     git_checkout := checkout;
     git_head := head;
     get_env := read_env;
     cmake_layout := cmake_ok;
     cmake_new := fun _ => inl (External "CMakePresets.json was not found");
     cmake_configure := cmake_ok;
     cmake_build := cmake_ok;
     cmake_install := cmake_ok |}.

(** A recipe whose record names a remote that cannot be reached, and one
    whose record names a commit its remote does not hold. *)
Definition unreachable_remote : Session World :=
  session untracked ∅ (provenance "https://example/repo.git" "abc123").

Definition unknown_commit : Session World :=
  session (tagged "v2.3.1" "https://example/repo.git" "abc123") ∅
    (provenance "https://example/repo.git" "deadbeef").

(** A recipe whose store has a [source] entry that is no mapping. *)
Definition scalar_source : Session World :=
  session (tagged "v2.3.1" "https://example/repo.git" "abc123") ∅
    (VDict [("source", VStr "https://example/repo.git")]).

End Fake.

(** ** Properties *)

(** *** Slices and dicts *)

Lemma slice_from_1_cons (c : ascii) (s : string) :
  slice_from 1 (String c s) = s.
Proof. reflexivity. Qed.

Lemma slice_from_1_short (s : string) :
  String.length s <= 1 -> slice_from 1 s = "".
Proof.
  destruct s as [|c [|c' s]]; simpl; intros Hlen; try reflexivity; lia.
Qed.

Lemma slice_from_1_long (s : string) :
  2 <= String.length s -> exists c, s = String c (slice_from 1 s).
Proof.
  destruct s as [|c s]; simpl; intros Hlen; [lia|].
  exists c. reflexivity.
Qed.

Lemma dict_get_set_eq (k : string) (v : value) (d : list (string * value)) :
  dict_get k (dict_set k v d) = Some v.
Proof.
  induction d as [|[k' v'] d IH]; simpl.
  - rewrite String.eqb_refl. reflexivity.
  - destruct (String.eqb k k') eqn:E; simpl.
    + rewrite String.eqb_refl. reflexivity.
    + rewrite E. exact IH.
Qed.

Lemma dict_get_set_ne (k k' : string) (v : value)
    (d : list (string * value)) :
  k <> k' -> dict_get k' (dict_set k v d) = dict_get k' d.
Proof.
  intros Hne. induction d as [|[k0 v0] d IH]; simpl.
  - destruct (String.eqb k' k) eqn:E; [|reflexivity].
    apply String.eqb_eq in E. congruence.
  - destruct (String.eqb k k0) eqn:E; simpl.
    + apply String.eqb_eq in E. subst k0.
      destruct (String.eqb k' k) eqn:E'; [|reflexivity].
      apply String.eqb_eq in E'. congruence.
    + destruct (String.eqb k' k0); [reflexivity|exact IH].
Qed.

(** *** The version resolver *)

Section SetVersion.

Context {W : Type} `{Collaborators W}.

Lemma set_version_returns (st : Session W) (tag : string) :
  describe st = inr tag ->
  set_version st =
    (inr tt,
     log_assigned "version" (VStr (slice_from 1 tag))
       (with_self (set_version_field (slice_from 1 tag)) (described st))).
Proof.
  unfold describe, set_version, bind, attr, query, assign_version, described.
  simpl. intros ->. reflexivity.
Qed.

Lemma set_version_raises (st : Session W) (e : exn) :
  describe st = inl e -> set_version st = (inl e, described st).
Proof.
  unfold describe, set_version, bind, attr, query, described.
  simpl. intros ->. reflexivity.
Qed.

(** C1. When the describe-tags query answers a tag [T] of length at least
    2, [set_version] returns and the recipe's version is [T] without its
    first character: [T] is that character followed by the version. *)
Theorem set_version_strips_first_character (st : Session W) (T : string) :
  describe st = inr T ->
  2 <= String.length T ->
  exists (c : ascii) (v : string),
    T = String c v /\
    (set_version st).1 = inr tt /\
    version (self (set_version st).2) = Some v.
Proof.
  intros Hq Hlen.
  destruct (slice_from_1_long T Hlen) as [c HT].
  exists c, (slice_from 1 T).
  rewrite (set_version_returns st T Hq). simpl.
  split; [exact HT|]. split; reflexivity.
Qed.

(** C7. When the describe-tags query fails with [e], [set_version] raises
    that same [e]; the recipe object is as it was, its version included,
    and nothing has been assigned. *)
Theorem set_version_propagates_failure (st : Session W) (e : exn) :
  describe st = inl e ->
  (set_version st).1 = inl e /\
  self (set_version st).2 = self st /\
  version (self (set_version st).2) = version (self st) /\
  assigned (set_version st).2 = assigned st.
Proof.
  intros Hq. rewrite (set_version_raises st e Hq). simpl.
  repeat split; reflexivity.
Qed.

(** C10. A tag of length 0 or 1 does not make [set_version] fail: it
    returns and the recipe's version is the empty string. *)
Theorem set_version_short_tag (st : Session W) (T : string) :
  describe st = inr T ->
  String.length T <= 1 ->
  (set_version st).1 = inr tt /\
  version (self (set_version st).2) = Some "".
Proof.
  intros Hq Hlen.
  rewrite (set_version_returns st T Hq).
  rewrite (slice_from_1_short T Hlen). split; reflexivity.
Qed.

End SetVersion.

Lemma set_version_strips_first_character_witness :
  (set_version (Fake.session (Fake.tagged "v2.3.1" "u" "c") ∅ (VDict []))).1
    = inr tt /\
  version
    (self (set_version
             (Fake.session (Fake.tagged "v2.3.1" "u" "c") ∅ (VDict []))).2)
    = Some "2.3.1".
Proof.
  destruct (set_version_strips_first_character
              (Fake.session (Fake.tagged "v2.3.1" "u" "c") ∅ (VDict []))
              "v2.3.1") as (c & v & HT & Hret & Hv).
  - reflexivity.
  - simpl. lia.
  - injection HT as _ <-. split; [exact Hret|exact Hv].
Defined.

Lemma set_version_propagates_failure_witness :
  (set_version (Fake.session Fake.untracked ∅ (VDict []))).1
    = inl (External "fatal: No names found") /\
  self (set_version (Fake.session Fake.untracked ∅ (VDict []))).2
    = self (Fake.session Fake.untracked ∅ (VDict [])) /\
  version (self (set_version (Fake.session Fake.untracked ∅ (VDict []))).2)
    = version (self (Fake.session Fake.untracked ∅ (VDict []))) /\
  assigned (set_version (Fake.session Fake.untracked ∅ (VDict []))).2
    = assigned (Fake.session Fake.untracked ∅ (VDict [])).
Proof.
  apply (set_version_propagates_failure
           (Fake.session Fake.untracked ∅ (VDict []))
           (External "fatal: No names found")).
  reflexivity.
Defined.

Lemma set_version_short_tag_witness :
  (set_version (Fake.session (Fake.tagged "v" "u" "c") ∅ (VDict []))).1
    = inr tt /\
  version
    (self (set_version (Fake.session (Fake.tagged "v" "u" "c") ∅ (VDict []))).2)
    = Some "".
Proof.
  apply (set_version_short_tag
           (Fake.session (Fake.tagged "v" "u" "c") ∅ (VDict [])) "v").
  - reflexivity.
  - simpl. lia.
Defined.

(** *** The conditional dependency declarator *)

Section BuildRequirements.

Context {W : Type} `{Collaborators W}.

Lemma build_requirements_unfold (st : Session W) :
  build_requirements st =
    (inr tt,
     if toggle st then
       with_self (add_requirement "trompeloeil/42")
         (with_self (add_requirement "catch2/2.13.9") st)
     else st).
Proof.
  unfold build_requirements, bind, _run_tests, toggle, test_requires, ret.
  destruct (truthy _); reflexivity.
Qed.

Lemma build_requirements_declared (st : Session W) :
  declared (build_requirements st).2 =
    (declared st ++
       (if toggle st then ["catch2/2.13.9"; "trompeloeil/42"] else []))%list.
Proof.
  rewrite build_requirements_unfold. unfold declared. simpl.
  destruct (toggle st); simpl.
  - rewrite <- app_assoc. reflexivity.
  - rewrite app_nil_r. reflexivity.
Qed.

(** C3. [build_requirements] is a function of the test toggle alone. It
    always returns; with the toggle off it leaves the whole session as it
    was, so that neither test dependency is declared; with the toggle on
    it declares exactly the two test dependencies, at their pins, after
    what was declared before; and two sessions that agree on the toggle
    and on what was declared before agree on what is declared after,
    whatever else differs between them (environment, world, store,
    recipe attributes). *)
Theorem build_requirements_function_of_toggle :
  (forall st : Session W,
      (build_requirements st).1 = inr tt /\
      (toggle st = false -> (build_requirements st).2 = st) /\
      (toggle st = true ->
       declared (build_requirements st).2 =
         (declared st ++ ["catch2/2.13.9"; "trompeloeil/42"])%list)) /\
  (forall st1 st2 : Session W,
      toggle st1 = toggle st2 ->
      declared st1 = declared st2 ->
      declared (build_requirements st1).2 =
        declared (build_requirements st2).2).
Proof.
  split.
  - intros st. split; [|split].
    + rewrite build_requirements_unfold. reflexivity.
    + intros Hoff. rewrite build_requirements_unfold, Hoff. reflexivity.
    + intros Hon. rewrite build_requirements_declared, Hon. reflexivity.
  - intros st1 st2 Ht Hd.
    rewrite !build_requirements_declared, Ht, Hd. reflexivity.
Qed.

(** C9. With the toggle on, a recipe that had declared nothing declares
    exactly ['catch2/2.13.9'] and ['trompeloeil/42'], in this order. *)
Theorem build_requirements_pins (st : Session W) :
  toggle st = true ->
  declared st = [] ->
  declared (build_requirements st).2 = ["catch2/2.13.9"; "trompeloeil/42"].
Proof.
  intros Hon Hnone.
  rewrite build_requirements_declared, Hon, Hnone. reflexivity.
Qed.

End BuildRequirements.

Lemma build_requirements_function_of_toggle_witness :
  ((build_requirements
      (Fake.session Fake.untracked {[ "CONAN_RUN_TESTS" := "1" ]}
         (VDict []))).1 = inr tt /\
   declared
     (build_requirements
        (Fake.session Fake.untracked {[ "CONAN_RUN_TESTS" := "1" ]}
           (VDict []))).2
     = ["catch2/2.13.9"; "trompeloeil/42"]) /\
  (build_requirements (Fake.session Fake.untracked ∅ (VDict []))).2
    = Fake.session Fake.untracked ∅ (VDict []) /\
  declared
    (build_requirements
       (Fake.session Fake.untracked {[ "CONAN_RUN_TESTS" := "1" ]}
          (VDict []))).2
  = declared
      (build_requirements
         (Fake.session (Fake.tagged "v1" "u" "c")
            {[ "CONAN_RUN_TESTS" := "True"; "HOME" := "/root" ]}
            (VDict [("k", VInt 1)]))).2.
Proof.
  pose proof (@build_requirements_function_of_toggle Fake.World _)
    as [Hone Htwo].
  split; [|split].
  - destruct (Hone (Fake.session Fake.untracked
                      {[ "CONAN_RUN_TESTS" := "1" ]} (VDict [])))
      as (Hret & _ & Hon).
    split; [exact Hret|]. apply Hon. vm_compute. reflexivity.
  - destruct (Hone (Fake.session Fake.untracked ∅ (VDict [])))
      as (_ & Hoff & _).
    apply Hoff. vm_compute. reflexivity.
  - apply Htwo; vm_compute; reflexivity.
Defined.

Lemma build_requirements_pins_witness :
  declared
    (build_requirements
       (Fake.session Fake.untracked {[ "CONAN_RUN_TESTS" := "True" ]}
          (VDict []))).2
  = ["catch2/2.13.9"; "trompeloeil/42"].
Proof.
  apply (build_requirements_pins
           (Fake.session Fake.untracked {[ "CONAN_RUN_TESTS" := "True" ]}
              (VDict []))).
  - vm_compute. reflexivity.
  - reflexivity.
Defined.

(** *** The package identity normalizer *)

Section PackageId.

Context {W : Type} `{Collaborators W}.

Lemma package_id_forgets_settings (st : Session W) (i1 i2 : Info) :
  info_options i1 = info_options i2 ->
  info_requires i1 = info_requires i2 ->
  package_id (with_info i1 st) = package_id (with_info i2 st).
Proof.
  intros Ho Hr.
  unfold package_id, with_info, with_self, map_info, clear. simpl.
  rewrite Ho, Hr. reflexivity.
Qed.

(** C6. Whatever the compiler and build type the identity info was made
    from, [package_id] leaves the same session behind, and so the same
    identity info, with no setting in it: two settings tuples, equal or
    not, end in one package identity. *)
Theorem package_id_ignores_settings (st : Session W)
    (compiler1 build_type1 compiler2 build_type2 : string) :
  package_id (with_info (settings_info compiler1 build_type1) st) =
    package_id (with_info (settings_info compiler2 build_type2) st) /\
  info (self (package_id
                (with_info (settings_info compiler1 build_type1) st)).2) =
    info (self (package_id
                  (with_info (settings_info compiler2 build_type2) st)).2) /\
  info_settings
    (info (self (package_id
                   (with_info (settings_info compiler1 build_type1) st)).2))
    = [].
Proof.
  pose proof (package_id_forgets_settings st
                (settings_info compiler1 build_type1)
                (settings_info compiler2 build_type2) eq_refl eq_refl) as E.
  split; [exact E|]. split; [rewrite E; reflexivity|reflexivity].
Qed.

End PackageId.

(** *** The identity fields across the lifecycle *)

Section Frame.

Context {W : Type} `{Collaborators W}.

Lemma same_identity_refl (st : Session W) : same_identity st st.
Proof. repeat split. Qed.

Lemma same_identity_trans (st1 st2 st3 : Session W) :
  same_identity st1 st2 -> same_identity st2 st3 -> same_identity st1 st3.
Proof.
  unfold same_identity. intros (Hi & Hv & Ha) (Hi' & Hv' & Ha').
  repeat split; congruence.
Qed.

Lemma quiet_ret {A : Type} (a : A) : quiet (ret (W:=W) a).
Proof. intros st. apply same_identity_refl. Qed.

Lemma quiet_lift {A : Type} (r : result A) : quiet (lift (W:=W) r).
Proof. intros st. apply same_identity_refl. Qed.

Lemma quiet_attr {A : Type} (f : Recipe -> A) : quiet (attr (W:=W) f).
Proof. intros st. apply same_identity_refl. Qed.

Lemma quiet_query {A : Type} (c : call) (q : W -> result A) :
  quiet (query c q).
Proof. intros st. repeat split. Qed.

Lemma quiet_command (c : call) (f : W -> result unit * W) :
  quiet (command c f).
Proof.
  intros st. unfold command. simpl.
  destruct (f (world st)) as [r w]. repeat split.
Qed.

Lemma quiet_test_requires (ref : string) : quiet (test_requires (W:=W) ref).
Proof. intros st. repeat split. Qed.

Lemma quiet_update_conandata (data : value) :
  quiet (update_conandata (W:=W) data).
Proof.
  intros st. unfold update_conandata.
  destruct (recursive_dict_update data (conandata_yml st)); repeat split.
Qed.

Lemma quiet_bind {A B : Type} (m : M W A) (k : A -> M W B) :
  quiet m -> (forall a, quiet (k a)) -> quiet (bind m k).
Proof.
  intros Hm Hk st. unfold bind.
  specialize (Hm st). destruct (m st) as [[e|a] st']; simpl in *.
  - exact Hm.
  - eapply same_identity_trans; [exact Hm|apply Hk].
Qed.

Create HintDb quiet.

Local Hint Resolve quiet_ret quiet_lift quiet_attr quiet_query
  quiet_command quiet_test_requires quiet_update_conandata : quiet.

Lemma quiet_package_id : quiet (package_id (W:=W)).
Proof. intros st. repeat split. Qed.

Lemma quiet_build_requirements : quiet (build_requirements (W:=W)).
Proof.
  apply quiet_bind; [intros st; apply same_identity_refl|].
  intros v. destruct (truthy v); auto with quiet.
  apply quiet_bind; auto with quiet.
Qed.

Lemma quiet_export : quiet (export (W:=W)).
Proof.
  apply quiet_bind; auto with quiet. intros folder.
  apply quiet_bind; auto with quiet. intros [scm_url scm_commit].
  auto with quiet.
Qed.

Lemma quiet_source : quiet (source (W:=W)).
Proof.
  unfold source.
  repeat (apply quiet_bind; [auto with quiet|intros ?]).
  auto with quiet.
Qed.

Lemma quiet_build : quiet (build (W:=W)).
Proof.
  apply quiet_bind; auto with quiet. intros cmake.
  apply quiet_bind; auto with quiet.
Qed.

Lemma quiet_package : quiet (package (W:=W)).
Proof. apply quiet_bind; auto with quiet. Qed.

Lemma run_quiet (m : method) :
  m <> SetVersion -> quiet (run (W:=W) m).
Proof.
  destruct m; simpl; intros Hm; try congruence.
  - apply quiet_package_id.
  - apply quiet_build_requirements.
  - apply quiet_export.
  - apply quiet_source.
  - apply quiet_command.
  - apply quiet_build.
  - apply quiet_package.
Qed.

Lemma run_keeps_identity (m : method) (st : Session W) :
  identity (self (run m st).2) = identity (self st).
Proof.
  assert (Hset : identity (self (set_version st).2) = identity (self st)).
  { destruct (describe st) as [e|tag] eqn:Hq.
    - rewrite (set_version_raises st e Hq). reflexivity.
    - rewrite (set_version_returns st tag Hq). reflexivity. }
  destruct m; try exact Hset;
    refine (proj1 (run_quiet _ _ st)); discriminate.
Qed.

Lemma run_keeps_version (m : method) (st : Session W) :
  m <> SetVersion ->
  version (self (run m st).2) = version (self st) /\
  assigned (run m st).2 = assigned st.
Proof.
  intros Hm. destruct (run_quiet m Hm st) as (_ & Hv & Ha).
  split; assumption.
Qed.

(** C8. Of the identity fields, [set_version] changes the version only,
    and assigns it once. When the describe-tags query answers [tag], the
    version after is [tag] without its first character, whatever it was
    before; name, author, url, description and every other attribute of
    the recipe are as they were; and one assignment, of that version to
    [version], has been made. When the query fails, the recipe is as it
    was and nothing has been assigned. Every method leaves name, author,
    url and description as they were, and every method other than
    [set_version] leaves the version as it was and assigns nothing. *)
Theorem version_is_the_only_field_assigned (m : method) (st : Session W) :
  identity (self (run m st).2) = identity (self st) /\
  (m <> SetVersion ->
   version (self (run m st).2) = version (self st) /\
   assigned (run m st).2 = assigned st) /\
  (m = SetVersion ->
   match describe st with
   | inr tag =>
       (run m st).1 = inr tt /\
       version (self (run m st).2) = Some (slice_from 1 tag) /\
       name (self (run m st).2) = name (self st) /\
       author (self (run m st).2) = author (self st) /\
       url (self (run m st).2) = url (self st) /\
       description (self (run m st).2) = description (self st) /\
       settings (self (run m st).2) = settings (self st) /\
       generators (self (run m st).2) = generators (self st) /\
       recipe_folder (self (run m st).2) = recipe_folder (self st) /\
       conan_data (self (run m st).2) = conan_data (self st) /\
       info (self (run m st).2) = info (self st) /\
       requirements (self (run m st).2) = requirements (self st) /\
       self (run m st).2 = set_version_field (slice_from 1 tag) (self st) /\
       assigned (run m st).2 =
         (assigned st ++ [("version", VStr (slice_from 1 tag))])%list
   | inl e =>
       (run m st).1 = inl e /\
       self (run m st).2 = self st /\
       assigned (run m st).2 = assigned st
   end).
Proof.
  split; [apply run_keeps_identity|].
  split; [apply run_keeps_version|].
  intros ->. change (run SetVersion st) with (set_version st).
  destruct (describe st) as [e|tag] eqn:Hq.
  - rewrite (set_version_raises st e Hq). repeat split; reflexivity.
  - rewrite (set_version_returns st tag Hq). repeat split; reflexivity.
Qed.

End Frame.

Lemma version_is_the_only_field_assigned_witness :
  (version
     (self (run SetVersion
              (Fake.session (Fake.tagged "v2.3.1" "u" "c") ∅ (VDict []))).2)
   = Some "2.3.1" /\
   name
     (self (run SetVersion
              (Fake.session (Fake.tagged "v2.3.1" "u" "c") ∅ (VDict []))).2)
   = "foundation" /\
   assigned (run SetVersion
               (Fake.session (Fake.tagged "v2.3.1" "u" "c") ∅ (VDict []))).2
   = [("version", VStr "2.3.1")]) /\
  (version (self (run Export
                    (Fake.session (Fake.tagged "v2.3.1" "u" "c") ∅
                       (VDict []))).2) = None /\
   assigned (run Export
               (Fake.session (Fake.tagged "v2.3.1" "u" "c") ∅ (VDict []))).2
   = []).
Proof.
  split.
  - destruct (version_is_the_only_field_assigned SetVersion
                (Fake.session (Fake.tagged "v2.3.1" "u" "c") ∅ (VDict [])))
      as (_ & _ & Hset).
    destruct (Hset eq_refl)
      as (_ & Hversion & Hname & _ & _ & _ & _ & _ & _ & _ & _ & _ & _
          & Hlog).
    split; [exact Hversion|]. split; [exact Hname|exact Hlog].
  - destruct (version_is_the_only_field_assigned Export
                (Fake.session (Fake.tagged "v2.3.1" "u" "c") ∅ (VDict [])))
      as (_ & Hother & _).
    apply Hother. discriminate.
Defined.

(** *** The provenance capturer *)

Section Provenance.

Context {W : Type} `{Collaborators W}.

Lemma merge_provenance (scm_url scm_commit : string)
    (d : list (string * value)) :
  recursive_dict_update (provenance scm_url scm_commit) (VDict d) =
    match dict_get "source" d with
    | None =>
        inr (VDict (dict_set "source"
                      (VDict [("commit", VStr scm_commit);
                              ("url", VStr scm_url)]) d))
    | Some (VDict sd) =>
        inr (VDict (dict_set "source"
                      (VDict (dict_set "url" (VStr scm_url)
                                (dict_set "commit" (VStr scm_commit) sd)))
                      d))
    | Some _ => inl TypeError
    end.
Proof.
  unfold provenance. simpl.
  destruct (dict_get "source" d) as [[| | | | |sd]|]; reflexivity.
Qed.

Lemma merge_provenance_not_dict (scm_url scm_commit : string) (x : value) :
  (forall d, x <> VDict d) ->
  recursive_dict_update (provenance scm_url scm_commit) x
    = inl AttributeError.
Proof.
  intros Hx. destruct x; try reflexivity. exfalso. eapply Hx. reflexivity.
Qed.

Lemma export_unfold (st : Session W) :
  export st =
    match captured st with
    | inl e => (inl e, log_call (GitGetUrlAndCommit (recipe_folder (self st))) st)
    | inr (scm_url, scm_commit) =>
        update_conandata (provenance scm_url scm_commit)
          (log_call (GitGetUrlAndCommit (recipe_folder (self st))) st)
    end.
Proof.
  unfold export, bind, attr, query, captured. simpl.
  destruct (git_get_url_and_commit _ _) as [e|[u c]]; reflexivity.
Qed.

Lemma export_keeps_other_keys (st : Session W) (k : string) :
  k <> "source" ->
  lookup_key k (conandata_yml (export st).2) =
    lookup_key k (conandata_yml st).
Proof.
  intros Hk. rewrite export_unfold.
  destruct (captured st) as [e|[u c]]; [reflexivity|].
  unfold update_conandata.
  change (conandata_yml (log_call _ st)) with (conandata_yml st).
  destruct (conandata_yml st) as [| | | | |d] eqn:Hstore;
    try (rewrite merge_provenance_not_dict by discriminate;
         simpl; rewrite Hstore; reflexivity).
  rewrite merge_provenance.
  destruct (dict_get "source" d) as [[| | | | |sd]|];
    simpl; rewrite ?Hstore; try reflexivity;
    apply dict_get_set_ne; congruence.
Qed.

Lemma export_returns (st : Session W) (d : list (string * value))
    (scm_url scm_commit : string) :
  conandata_yml st = VDict d ->
  captured st = inr (scm_url, scm_commit) ->
  (dict_get "source" d = None \/
   exists sd, dict_get "source" d = Some (VDict sd)) ->
  (export st).1 = inr tt.
Proof.
  intros Hstore Hq Hshape. rewrite export_unfold, Hq.
  unfold update_conandata.
  change (conandata_yml (log_call _ st)) with (conandata_yml st).
  rewrite Hstore, merge_provenance.
  destruct Hshape as [->|[sd ->]]; reflexivity.
Qed.

Lemma export_writes_record (st : Session W) :
  (export st).1 = inr tt ->
  exists (scm_url scm_commit : string) (src : value),
    captured st = inr (scm_url, scm_commit) /\
    lookup_key "source" (conandata_yml (export st).2) = Some src /\
    lookup_key "commit" src = Some (VStr scm_commit) /\
    lookup_key "url" src = Some (VStr scm_url) /\
    (forall k, k <> "commit" -> k <> "url" ->
       lookup_key k src =
         match lookup_key "source" (conandata_yml st) with
         | Some old => lookup_key k old
         | None => None
         end).
Proof.
  rewrite export_unfold.
  destruct (captured st) as [e|[u c]]; [discriminate|].
  unfold update_conandata.
  change (conandata_yml (log_call _ st)) with (conandata_yml st).
  destruct (conandata_yml st) as [| | | | |d] eqn:Hstore;
    try (rewrite merge_provenance_not_dict by discriminate; discriminate).
  rewrite merge_provenance.
  destruct (dict_get "source" d) as [[| | | | |sd]|] eqn:Hsrc;
    try discriminate; intros _; simpl.
  - exists u, c,
      (VDict (dict_set "url" (VStr u) (dict_set "commit" (VStr c) sd))).
    split; [reflexivity|]. split; [apply dict_get_set_eq|].
    simpl. split; [|split].
    + rewrite dict_get_set_ne by discriminate. apply dict_get_set_eq.
    + apply dict_get_set_eq.
    + intros k Hc Hu.
      rewrite !dict_get_set_ne by congruence. rewrite Hsrc. reflexivity.
  - exists u, c, (VDict [("commit", VStr c); ("url", VStr u)]).
    split; [reflexivity|]. split; [apply dict_get_set_eq|].
    split; [reflexivity|]. split; [reflexivity|].
    intros k Hc Hu. simpl. rewrite Hsrc.
    destruct (String.eqb k "commit") eqn:E1;
      [apply String.eqb_eq in E1; congruence|].
    destruct (String.eqb k "url") eqn:E2;
      [apply String.eqb_eq in E2; congruence|].
    reflexivity.
Qed.

(** C5. [export] merges into the store. Whatever the store held and
    however [export] ends, every key other than [source] reads after it
    as it read before it. When [export] returns, the url-and-commit query
    had answered and the store's [source] entry holds the commit and the
    url it answered, next to whatever other keys a [source] entry already
    held. And [export] does return when the query answers and the store
    is a mapping whose [source] entry, if any, is a mapping. *)
Theorem export_merges_into_store (st : Session W) :
  (forall k, k <> "source" ->
     lookup_key k (conandata_yml (export st).2) =
       lookup_key k (conandata_yml st)) /\
  ((export st).1 = inr tt ->
   exists (scm_url scm_commit : string) (src : value),
     captured st = inr (scm_url, scm_commit) /\
     lookup_key "source" (conandata_yml (export st).2) = Some src /\
     lookup_key "commit" src = Some (VStr scm_commit) /\
     lookup_key "url" src = Some (VStr scm_url) /\
     (forall k, k <> "commit" -> k <> "url" ->
        lookup_key k src =
          match lookup_key "source" (conandata_yml st) with
          | Some old => lookup_key k old
          | None => None
          end)) /\
  (forall d scm_url scm_commit,
     conandata_yml st = VDict d ->
     captured st = inr (scm_url, scm_commit) ->
     (dict_get "source" d = None \/
      exists sd, dict_get "source" d = Some (VDict sd)) ->
     (export st).1 = inr tt).
Proof.
  split; [apply export_keeps_other_keys|].
  split; [apply export_writes_record|].
  intros d u c. apply export_returns.
Qed.

End Provenance.

Lemma export_merges_into_store_witness :
  lookup_key "patches" (conandata_yml (export Fake.example).2)
    = Some (VList [VStr "fix.patch"]) /\
  (export Fake.example).1 = inr tt.
Proof.
  destruct (export_merges_into_store Fake.example) as (Hframe & _ & Hret).
  split.
  - rewrite Hframe by discriminate. reflexivity.
  - apply (Hret [("patches", VList [VStr "fix.patch"])]
             "https://example/repo.git" "abc123").
    + reflexivity.
    + reflexivity.
    + left. reflexivity.
Defined.

(** *** The source materializer *)

Section Materializer.

Context {W : Type} `{Collaborators W}.

Lemma source_of_record (st : Session W) (d sd : list (string * value))
    (u c : value) :
  conan_data (self st) = VDict d ->
  dict_get "source" d = Some (VDict sd) ->
  dict_get "url" sd = Some u ->
  dict_get "commit" sd = Some c ->
  source st = clone_and_checkout u c st.
Proof.
  intros Hdata Hsrc Hu Hc.
  unfold source, clone_and_checkout, bind, attr, lift, getitem. simpl.
  rewrite Hdata, Hsrc, Hu.
  destruct (command (GitClone u ".") (git_clone u ".") st) as [[e|[]] st'];
    [reflexivity|].
  rewrite Hc. reflexivity.
Qed.

Lemma clone_and_checkout_calls (st : Session W) (u c : value) :
  (clone_and_checkout u c st).1 = inr tt ->
  calls (clone_and_checkout u c st).2 =
    (calls st ++ [GitClone u "."; GitCheckout c])%list /\
  exists w,
    git_checkout c w = (inr tt, world (clone_and_checkout u c st).2).
Proof.
  unfold clone_and_checkout, bind, command. simpl.
  destruct (git_clone u "." (world st)) as [[e|[]] w1]; simpl;
    [discriminate|].
  destruct (git_checkout c w1) as [[e|[]] w2] eqn:Hco; simpl;
    [discriminate|].
  intros _. split.
  - rewrite <- app_assoc. reflexivity.
  - exists w1. exact Hco.
Qed.

(** C2. Round trip of [export] and [source]. Let [export] return, having
    captured the pair [(scm_url, scm_commit)], and let [source] run in any
    session, of the same process or of a later one, whose recipe has the
    store [export] left as its [conan_data]. Then [source] is the clone of
    [scm_url] into the current directory followed by the checkout of
    [scm_commit]. When it returns these two calls, in this order, are all
    it asked of the collaborators, and the work tree is at [scm_commit],
    a checkout that succeeds being assumed to leave the work tree at the
    commit asked for. *)
Theorem export_then_source_round_trip (st st1 : Session W)
    (scm_url scm_commit : string) :
  checkout_sets_head ->
  captured st = inr (scm_url, scm_commit) ->
  (export st).1 = inr tt ->
  conan_data (self st1) = conandata_yml (export st).2 ->
  source st1 = clone_and_checkout (VStr scm_url) (VStr scm_commit) st1 /\
  ((source st1).1 = inr tt ->
   calls (source st1).2 =
     (calls st1 ++ [GitClone (VStr scm_url) ".";
                    GitCheckout (VStr scm_commit)])%list /\
   git_head (world (source st1).2) = Some scm_commit).
Proof.
  intros Hhead Hq Hret Hdata.
  destruct (export_writes_record st Hret)
    as (u & c & src & Hq' & Hsrc & Hc & Hu & _).
  rewrite Hq in Hq'. injection Hq' as <- <-.
  destruct (conandata_yml (export st).2) as [| | | | |d];
    try discriminate.
  destruct src as [| | | | |sd]; try discriminate.
  simpl in Hsrc, Hc, Hu.
  pose proof (source_of_record st1 d sd _ _ Hdata Hsrc Hu Hc) as Hsource.
  split; [exact Hsource|].
  rewrite Hsource. intros Hok.
  destruct (clone_and_checkout_calls st1 _ _ Hok) as (Hcalls & w & Hco).
  split; [exact Hcalls|]. exact (Hhead _ _ _ Hco).
Qed.

(** C4, as amended. Let the store be a mapping. When it has no [source]
    entry, [source] fails with the missing-key error for [source] and the
    session is as it was: no clone, and no other call, has been made. The
    same holds, with the error for [url], when the [source] entry is a
    mapping without [url]. When the [source] entry has a [url] but no
    [commit], the clone of that url is the one call made, before the
    commit is read: [source] fails with the clone's error when the clone
    fails and with the missing-key error for [commit] when it succeeds,
    and no checkout is made. *)
Theorem source_without_record (st : Session W) (d : list (string * value)) :
  conan_data (self st) = VDict d ->
  (dict_get "source" d = None ->
   source st = (inl (KeyError "source"), st)) /\
  (forall sd,
     dict_get "source" d = Some (VDict sd) ->
     dict_get "url" sd = None ->
     source st = (inl (KeyError "url"), st)) /\
  (forall sd u,
     dict_get "source" d = Some (VDict sd) ->
     dict_get "url" sd = Some u ->
     dict_get "commit" sd = None ->
     calls (source st).2 = (calls st ++ [GitClone u "."])%list /\
     (source st).1 =
       match (git_clone u "." (world st)).1 with
       | inl e => inl e
       | inr _ => inl (KeyError "commit")
       end).
Proof.
  intros Hdata. split; [|split].
  - intros Hsrc. unfold source, bind, attr, lift, getitem. simpl.
    rewrite Hdata, Hsrc. reflexivity.
  - intros sd Hsrc Hu. unfold source, bind, attr, lift, getitem. simpl.
    rewrite Hdata, Hsrc, Hu. reflexivity.
  - intros sd u Hsrc Hu Hc.
    unfold source, bind, attr, lift, getitem, command. simpl.
    rewrite Hdata, Hsrc, Hu.
    destruct (git_clone u "." (world st)) as [[e|[]] w1]; simpl.
    + split; reflexivity.
    + rewrite Hc. split; reflexivity.
Qed.

End Materializer.

Lemma fake_checkout_sets_head : checkout_sets_head (W:=Fake.World).
Proof.
  intros c w w'. simpl. unfold Fake.checkout.
  destruct (Fake.cloned w) as [u|]; [|discriminate].
  destruct (Fake.commits_of u (Fake.remotes w)) as [cs|]; [|discriminate].
  destruct (Fake.mem c cs); [|discriminate].
  intros E. injection E as <-. reflexivity.
Qed.

Lemma export_then_source_round_trip_witness :
  source (load_conan_data (export Fake.example).2) =
    clone_and_checkout (VStr "https://example/repo.git") (VStr "abc123")
      (load_conan_data (export Fake.example).2) /\
  calls (source (load_conan_data (export Fake.example).2)).2 =
    [GitGetUrlAndCommit "/recipe";
     GitClone (VStr "https://example/repo.git") ".";
     GitCheckout (VStr "abc123")] /\
  git_head (world (source (load_conan_data (export Fake.example).2)).2)
    = Some "abc123".
Proof.
  destruct (export_then_source_round_trip Fake.example
              (load_conan_data (export Fake.example).2)
              "https://example/repo.git" "abc123")
    as (Hsource & Hdone).
  - exact fake_checkout_sets_head.
  - reflexivity.
  - reflexivity.
  - reflexivity.
  - split; [exact Hsource|]. apply Hdone. reflexivity.
Defined.

(** C4, as stated, fails: the store of [Fake.without_commit] lacks
    [source.commit], and [source] clones the url it holds before it fails
    on the missing commit. *)
Lemma source_clones_before_missing_commit :
  has_source_commit (conan_data (self Fake.without_commit)) = false /\
  (source Fake.without_commit).1 = inl (KeyError "commit") /\
  calls (source Fake.without_commit).2
    = [GitClone (VStr "https://example/repo.git") "."] /\
  ~ fails_without_clone Fake.without_commit.
Proof.
  split; [reflexivity|]. split; [reflexivity|]. split; [reflexivity|].
  intros [_ Hnone]. vm_compute in Hnone. discriminate.
Qed.

Lemma source_without_record_witness :
  source (Fake.session Fake.untracked ∅ Fake.example_store)
    = (inl (KeyError "source"),
       Fake.session Fake.untracked ∅ Fake.example_store) /\
  calls (source Fake.without_commit).2
    = [GitClone (VStr "https://example/repo.git") "."] /\
  (source Fake.without_commit).1 = inl (KeyError "commit").
Proof.
  split.
  - apply (source_without_record
             (Fake.session Fake.untracked ∅ Fake.example_store)
             [("patches", VList [VStr "fix.patch"])]);
      reflexivity.
  - destruct (source_without_record Fake.without_commit
                [("source",
                  VDict [("url", VStr "https://example/repo.git")])]
                eq_refl) as (_ & _ & Hclone).
    apply (Hclone [("url", VStr "https://example/repo.git")]
             (VStr "https://example/repo.git"));
      reflexivity.
Defined.

(** *** The build steps *)

Section Build.

Context {W : Type} `{Collaborators W}.

(** X1. [build] constructs the CMake helper, configures, then builds.
    When the constructor fails, [build] raises its error and neither step
    is asked for. When the configure step fails, [build] raises its
    error and the build step is never run. When it succeeds, the build
    step runs next, on the world configure left, and [build] ends as the
    build step ends. *)
Theorem build_configures_then_builds (st : Session W) :
  (forall e,
     cmake_new (world st) = inl e ->
     (build st).1 = inl e /\
     calls (build st).2 = (calls st ++ [CMakeNew])%list /\
     world (build st).2 = world st) /\
  (forall e w,
     cmake_new (world st) = inr tt ->
     cmake_configure (world st) = (inl e, w) ->
     (build st).1 = inl e /\
     calls (build st).2 = (calls st ++ [CMakeNew; CMakeConfigure])%list /\
     world (build st).2 = w) /\
  (forall w,
     cmake_new (world st) = inr tt ->
     cmake_configure (world st) = (inr tt, w) ->
     (build st).1 = (cmake_build w).1 /\
     calls (build st).2 =
       (calls st ++ [CMakeNew; CMakeConfigure; CMakeBuild])%list /\
     world (build st).2 = (cmake_build w).2).
Proof.
  split; [|split].
  - intros e Hn. unfold build, bind, query, command. simpl.
    rewrite Hn. repeat split; reflexivity.
  - intros e w Hn Hc. unfold build, bind, query, command. simpl.
    rewrite Hn, Hc. simpl. rewrite <- app_assoc.
    repeat split; reflexivity.
  - intros w Hn Hc. unfold build, bind, query, command. simpl.
    rewrite Hn, Hc. simpl.
    destruct (cmake_build w) as [r w']. simpl.
    rewrite <- !app_assoc. repeat split; reflexivity.
Qed.

End Build.

Lemma build_configures_then_builds_witness :
  ((@build _ Fake.missing_presets Fake.example).1
     = inl (External "CMakePresets.json was not found") /\
   calls (@build _ Fake.missing_presets Fake.example).2 = [CMakeNew]) /\
  ((@build _ Fake.failing_configure Fake.example).1
     = inl (External "configure failed") /\
   calls (@build _ Fake.failing_configure Fake.example).2
     = [CMakeNew; CMakeConfigure]) /\
  ((build Fake.example).1 = inr tt /\
   calls (build Fake.example).2 = [CMakeNew; CMakeConfigure; CMakeBuild]).
Proof.
  split; [|split].
  - destruct (@build_configures_then_builds _ Fake.missing_presets
                Fake.example) as (Hnew & _ & _).
    destruct (Hnew (External "CMakePresets.json was not found") eq_refl)
      as (Hr & Hc & _).
    split; [exact Hr|exact Hc].
  - destruct (@build_configures_then_builds _ Fake.failing_configure
                Fake.example) as (_ & Hfail & _).
    destruct (Hfail (External "configure failed") (world Fake.example)
                eq_refl eq_refl) as (Hr & Hc & _).
    split; [exact Hr|exact Hc].
  - destruct (build_configures_then_builds Fake.example) as (_ & _ & Hok).
    destruct (Hok (world Fake.example) eq_refl eq_refl) as (Hr & Hc & _).
    split; [exact Hr|exact Hc].
Defined.

(** *** How [source] ends *)

Section SourceOutcomes.

Context {W : Type} `{Collaborators W}.

(** The store holds a [source] entry that is a mapping with the url [u]. *)
Lemma source_to_clone (st : Session W) (d sd : list (string * value))
    (u : value) :
  conan_data (self st) = VDict d ->
  dict_get "source" d = Some (VDict sd) ->
  dict_get "url" sd = Some u ->
  source st =
    bind (command (GitClone u ".") (git_clone u "."))
      (fun _ =>
         bind (lift (getitem (VDict sd) "commit"))
           (fun c => command (GitCheckout c) (git_checkout c))) st.
Proof.
  intros Hdata Hsrc Hu.
  unfold source, bind, attr, lift, getitem. simpl.
  rewrite Hdata, Hsrc, Hu. reflexivity.
Qed.

(** X2. When the clone fails, [source] raises the clone's error: the
    clone is the one call made, no checkout is asked for, and the world
    is as the failed clone left it. This holds whether or not the record
    has a commit, which is read only after the clone. *)
Theorem source_clone_failure (st : Session W) (d sd : list (string * value))
    (u : value) (e : exn) (w : W) :
  conan_data (self st) = VDict d ->
  dict_get "source" d = Some (VDict sd) ->
  dict_get "url" sd = Some u ->
  git_clone u "." (world st) = (inl e, w) ->
  (source st).1 = inl e /\
  calls (source st).2 = (calls st ++ [GitClone u "."])%list /\
  world (source st).2 = w.
Proof.
  intros Hdata Hsrc Hu Hclone.
  rewrite (source_to_clone st d sd u Hdata Hsrc Hu).
  unfold bind, command. simpl. rewrite Hclone. simpl.
  repeat split; reflexivity.
Qed.

(** X3. When the clone succeeds and the checkout fails, [source] raises
    the checkout's error after both calls have been made, and the world
    is as the failed checkout left it: the clone is not undone. *)
Theorem source_checkout_failure (st : Session W)
    (d sd : list (string * value)) (u c : value) (e : exn) (w1 w2 : W) :
  conan_data (self st) = VDict d ->
  dict_get "source" d = Some (VDict sd) ->
  dict_get "url" sd = Some u ->
  dict_get "commit" sd = Some c ->
  git_clone u "." (world st) = (inr tt, w1) ->
  git_checkout c w1 = (inl e, w2) ->
  (source st).1 = inl e /\
  calls (source st).2 =
    (calls st ++ [GitClone u "."; GitCheckout c])%list /\
  world (source st).2 = w2.
Proof.
  intros Hdata Hsrc Hu Hc Hclone Hco.
  rewrite (source_to_clone st d sd u Hdata Hsrc Hu).
  unfold bind, command, lift, getitem. simpl.
  rewrite Hclone. simpl. rewrite Hc. simpl. rewrite Hco. simpl.
  rewrite <- app_assoc. repeat split; reflexivity.
Qed.

(** X4. A [conan_data] that is no mapping ([None] included), or a
    [source] entry that is no mapping, makes [source] fail with a type
    error, not a missing-key error, and the session is as it was: no
    call has been made. *)
Theorem source_type_error (st : Session W) :
  ((forall d, conan_data (self st) <> VDict d) ->
   source st = (inl TypeError, st)) /\
  (forall d x,
     conan_data (self st) = VDict d ->
     dict_get "source" d = Some x ->
     (forall sd, x <> VDict sd) ->
     source st = (inl TypeError, st)).
Proof.
  split.
  - intros Hnot. unfold source, bind, attr, lift, getitem. simpl.
    destruct (conan_data (self st)) as [| | | | |d]; try reflexivity.
    exfalso. apply (Hnot d). reflexivity.
  - intros d x Hdata Hsrc Hnot.
    unfold source, bind, attr, lift, getitem. simpl.
    rewrite Hdata, Hsrc.
    destruct x as [| | | | |sd]; try reflexivity.
    exfalso. apply (Hnot sd). reflexivity.
Qed.

(** X5. [source] returns exactly when the store holds a complete record
    and both commands succeed: [conan_data] is a mapping whose [source]
    entry is a mapping with a url and a commit, the clone of the url
    succeeds, and the checkout of the commit succeeds on the world the
    clone left. *)
Theorem source_returns_iff (st : Session W) :
  (source st).1 = inr tt <->
  exists (d sd : list (string * value)) (u c : value) (w1 w2 : W),
    conan_data (self st) = VDict d /\
    dict_get "source" d = Some (VDict sd) /\
    dict_get "url" sd = Some u /\
    dict_get "commit" sd = Some c /\
    git_clone u "." (world st) = (inr tt, w1) /\
    git_checkout c w1 = (inr tt, w2).
Proof.
  split.
  - unfold source, bind, attr, lift, getitem, command. simpl.
    destruct (conan_data (self st)) as [| | | | |d]; try discriminate.
    destruct (dict_get "source" d) as [[| | | | |sd]|] eqn:Hsrc;
      try discriminate.
    destruct (dict_get "url" sd) as [u|] eqn:Hu; [|discriminate].
    destruct (git_clone u "." (world st)) as [[e|[]] w1] eqn:Hclone;
      simpl; [discriminate|].
    destruct (dict_get "commit" sd) as [c|] eqn:Hc; [|discriminate].
    simpl.
    destruct (git_checkout c w1) as [[e|[]] w2] eqn:Hco;
      simpl; [discriminate|].
    intros _. exists d, sd, u, c, w1, w2. repeat split; assumption.
  - intros (d & sd & u & c & w1 & w2 & Hdata & Hsrc & Hu & Hc & Hcl & Hco).
    rewrite (source_to_clone st d sd u Hdata Hsrc Hu).
    unfold bind, command, lift, getitem. simpl.
    rewrite Hcl. simpl. rewrite Hc. simpl. rewrite Hco. reflexivity.
Qed.

End SourceOutcomes.

Lemma source_clone_failure_witness :
  (source Fake.unreachable_remote).1
    = inl (External "repository not found") /\
  calls (source Fake.unreachable_remote).2
    = [GitClone (VStr "https://example/repo.git") "."] /\
  world (source Fake.unreachable_remote).2 = Fake.untracked.
Proof.
  apply (source_clone_failure Fake.unreachable_remote
           [("source", VDict [("commit", VStr "abc123");
                              ("url", VStr "https://example/repo.git")])]
           [("commit", VStr "abc123");
            ("url", VStr "https://example/repo.git")]
           (VStr "https://example/repo.git")
           (External "repository not found") Fake.untracked);
    reflexivity.
Defined.

Lemma source_checkout_failure_witness :
  (source Fake.unknown_commit).1 = inl (External "unknown revision") /\
  calls (source Fake.unknown_commit).2
    = [GitClone (VStr "https://example/repo.git") ".";
       GitCheckout (VStr "deadbeef")] /\
  Fake.cloned (world (source Fake.unknown_commit).2)
    = Some "https://example/repo.git".
Proof.
  destruct (source_checkout_failure Fake.unknown_commit
              [("source", VDict [("commit", VStr "deadbeef");
                                 ("url", VStr "https://example/repo.git")])]
              [("commit", VStr "deadbeef");
               ("url", VStr "https://example/repo.git")]
              (VStr "https://example/repo.git") (VStr "deadbeef")
              (External "unknown revision")
              (Fake.clone (VStr "https://example/repo.git") "."
                 (world Fake.unknown_commit)).2
              (Fake.clone (VStr "https://example/repo.git") "."
                 (world Fake.unknown_commit)).2)
    as (Hr & Hc & Hw); try reflexivity.
  split; [exact Hr|]. split; [exact Hc|]. rewrite Hw. reflexivity.
Defined.

Lemma source_type_error_witness :
  source (Fake.session Fake.untracked ∅ VNone)
    = (inl TypeError, Fake.session Fake.untracked ∅ VNone) /\
  source Fake.scalar_source = (inl TypeError, Fake.scalar_source).
Proof.
  split.
  - destruct (source_type_error (Fake.session Fake.untracked ∅ VNone))
      as [Hnone _].
    apply Hnone. intros d. discriminate.
  - destruct (source_type_error Fake.scalar_source) as [_ Hscalar].
    apply (Hscalar [("source", VStr "https://example/repo.git")]
             (VStr "https://example/repo.git")).
    + reflexivity.
    + reflexivity.
    + intros sd. discriminate.
Defined.

Lemma source_returns_iff_witness :
  (source (load_conan_data (export Fake.example).2)).1 = inr tt.
Proof.
  apply (proj2 (source_returns_iff
                  (load_conan_data (export Fake.example).2))).
  exists [("patches", VList [VStr "fix.patch"]);
          ("source", VDict [("commit", VStr "abc123");
                            ("url", VStr "https://example/repo.git")])],
    [("commit", VStr "abc123"); ("url", VStr "https://example/repo.git")],
    (VStr "https://example/repo.git"), (VStr "abc123"),
    (Fake.clone (VStr "https://example/repo.git") "."
       (world Fake.example)).2,
    (Fake.checkout (VStr "abc123")
       (Fake.clone (VStr "https://example/repo.git") "."
          (world Fake.example)).2).2.
  repeat split; reflexivity.
Defined.

(** *** How [export] ends, and exporting again *)

Section ExportOutcomes.

Context {W : Type} `{Collaborators W}.

Lemma dict_set_same (k : string) (v : value) (d : list (string * value)) :
  dict_get k d = Some v -> dict_set k v d = d.
Proof.
  induction d as [|[k' v'] d IH]; simpl; [discriminate|].
  destruct (String.eqb k k') eqn:E.
  - apply String.eqb_eq in E. subst k'. intros [= ->]. reflexivity.
  - intros Hget. rewrite (IH Hget). reflexivity.
Qed.

Lemma export_keeps_world (st : Session W) :
  self (export st).2 = self st /\ world (export st).2 = world st.
Proof.
  rewrite export_unfold.
  destruct (captured st) as [e|[u c]]; [split; reflexivity|].
  unfold update_conandata.
  destruct (recursive_dict_update _ _); split; reflexivity.
Qed.

(** X6. When the url-and-commit query fails, [export] raises the query's
    error and writes nothing: the store, the recipe object and the world
    are as they were, and the query is the one call made. *)
Theorem export_query_failure (st : Session W) (e : exn) :
  captured st = inl e ->
  (export st).1 = inl e /\
  conandata_yml (export st).2 = conandata_yml st /\
  self (export st).2 = self st /\
  world (export st).2 = world st /\
  calls (export st).2 =
    (calls st ++ [GitGetUrlAndCommit (recipe_folder (self st))])%list.
Proof.
  intros Hq. rewrite export_unfold, Hq. repeat split; reflexivity.
Qed.

Lemma export_of_recorded (st : Session W) (d sd : list (string * value))
    (u c : string) :
  conandata_yml st = VDict d ->
  dict_get "source" d = Some (VDict sd) ->
  dict_get "commit" sd = Some (VStr c) ->
  dict_get "url" sd = Some (VStr u) ->
  captured st = inr (u, c) ->
  (export st).1 = inr tt /\
  conandata_yml (export st).2 = VDict d.
Proof.
  intros Hstore Hsrc Hc Hu Hq.
  rewrite export_unfold, Hq. unfold update_conandata.
  change (conandata_yml (log_call _ st)) with (conandata_yml st).
  rewrite Hstore, merge_provenance, Hsrc.
  rewrite (dict_set_same "commit" (VStr c) sd Hc).
  rewrite (dict_set_same "url" (VStr u) sd Hu).
  rewrite (dict_set_same "source" (VDict sd) d Hsrc).
  split; reflexivity.
Qed.

(** X7. Exporting again changes nothing: when [export] returns, a second
    [export] in the session it left returns too and leaves the store as
    the first left it. *)
Theorem export_twice (st : Session W) :
  (export st).1 = inr tt ->
  (export (export st).2).1 = inr tt /\
  conandata_yml (export (export st).2).2 = conandata_yml (export st).2.
Proof.
  intros Hret.
  destruct (export_writes_record st Hret)
    as (u & c & src & Hq & Hsrc & Hc & Hu & _).
  assert (Hq2 : captured (export st).2 = inr (u, c)).
  { unfold captured. destruct (export_keeps_world st) as [-> ->].
    exact Hq. }
  destruct (conandata_yml (export st).2) as [| | | | |d1] eqn:Hstore;
    try discriminate.
  destruct src as [| | | | |sd1]; try discriminate.
  exact (export_of_recorded (export st).2 d1 sd1 u c
           Hstore Hsrc Hc Hu Hq2).
Qed.

End ExportOutcomes.

Lemma export_query_failure_witness :
  (export (Fake.session Fake.untracked ∅ Fake.example_store)).1
    = inl (External "not a git repository") /\
  conandata_yml (export (Fake.session Fake.untracked ∅ Fake.example_store)).2
    = Fake.example_store.
Proof.
  destruct (export_query_failure
              (Fake.session Fake.untracked ∅ Fake.example_store)
              (External "not a git repository"))
    as (Hr & Hs & _); [reflexivity|].
  split; [exact Hr|exact Hs].
Defined.

Lemma export_twice_witness :
  (export (export Fake.example).2).1 = inr tt /\
  conandata_yml (export (export Fake.example).2).2
    = VDict [("patches", VList [VStr "fix.patch"]);
             ("source", VDict [("commit", VStr "abc123");
                               ("url", VStr "https://example/repo.git")])].
Proof.
  destruct (export_twice Fake.example) as [Hr Hs]; [reflexivity|].
  split; [exact Hr|]. rewrite Hs. reflexivity.
Defined.

(** *** What each method leaves alone *)

Section Footprint.

Context {W : Type} `{Collaborators W}.

Lemma bind_keeps {X A B : Type} (f : Session W -> X)
    (m : M W A) (k : A -> M W B) :
  (forall st, f (m st).2 = f st) ->
  (forall a st, f (k a st).2 = f st) ->
  forall st, f (bind m k st).2 = f st.
Proof.
  intros Hm Hk st. unfold bind.
  specialize (Hm st). destruct (m st) as [[e|a] st']; simpl in *.
  - exact Hm.
  - rewrite Hk. exact Hm.
Qed.

Lemma command_keeps {X : Type} (f : Session W -> X) (c : call)
    (g : W -> result unit * W) :
  (forall w st, f (with_world w (log_call c st)) = f st) ->
  forall st, f (command c g st).2 = f st.
Proof.
  intros Hf st. unfold command. simpl.
  destruct (g (world st)) as [r w]. simpl. apply Hf.
Qed.

Lemma update_conandata_keeps {X : Type} (f : Session W -> X)
    (data : value) :
  (forall d st, f (with_conandata_yml d st) = f st) ->
  forall st, f (update_conandata data st).2 = f st.
Proof.
  intros Hf st. unfold update_conandata.
  destruct (recursive_dict_update data (conandata_yml st)); simpl;
    [reflexivity|apply Hf].
Qed.

Ltac keeps_of f :=
  repeat first
    [ apply (bind_keeps f); [|intros ?]
    | apply (command_keeps f); intros; reflexivity
    | apply (update_conandata_keeps f); intros; reflexivity
    | match goal with
      | |- context [if ?b then _ else _] => destruct b
      | |- context [let (_, _) := ?p in _] => destruct p
      end
    | intros ?; reflexivity ].

Lemma run_keeps_environ (m : method) :
  forall st : Session W, environ (run m st).2 = environ st.
Proof.
  destruct m; simpl;
    unfold package_id, set_version, build_requirements, export, source,
      layout, build, package; keeps_of (@environ W).
Qed.

Lemma run_keeps_store (m : method) :
  m <> Export ->
  forall st : Session W, conandata_yml (run m st).2 = conandata_yml st.
Proof.
  intros Hm. destruct m; try congruence; simpl;
    unfold package_id, set_version, build_requirements, source,
      layout, build, package; keeps_of (@conandata_yml W).
Qed.

Lemma run_keeps_conan_data (m : method) :
  forall st : Session W,
    conan_data (self (run m st).2) = conan_data (self st).
Proof.
  destruct m; simpl;
    unfold package_id, set_version, build_requirements, export, source,
      layout, build, package;
    keeps_of (fun st : Session W => conan_data (self st)).
Qed.

Lemma run_keeps_recipe_folder (m : method) :
  forall st : Session W,
    recipe_folder (self (run m st).2) = recipe_folder (self st).
Proof.
  destruct m; simpl;
    unfold package_id, set_version, build_requirements, export, source,
      layout, build, package;
    keeps_of (fun st : Session W => recipe_folder (self st)).
Qed.

Lemma run_keeps_info (m : method) :
  m <> PackageId ->
  forall st : Session W, info (self (run m st).2) = info (self st).
Proof.
  intros Hm. destruct m; try congruence; simpl;
    unfold set_version, build_requirements, export, source,
      layout, build, package; keeps_of (fun st : Session W => info (self st)).
Qed.

Lemma run_keeps_requirements (m : method) :
  m <> BuildRequirements ->
  forall st : Session W,
    requirements (self (run m st).2) = requirements (self st).
Proof.
  intros Hm. destruct m; try congruence; simpl;
    unfold package_id, set_version, export, source,
      layout, build, package; keeps_of (fun st : Session W => requirements (self st)).
Qed.

Lemma run_keeps_self (m : method) :
  m = Export \/ m = Source \/ m = Layout \/ m = Build \/ m = Package ->
  forall st : Session W, self (run m st).2 = self st.
Proof.
  intros Hm. destruct m; simpl;
    try (exfalso; destruct Hm as [?|[?|[?|[?|?]]]]; discriminate);
    unfold export, source, layout, build, package; keeps_of (@self W).
Qed.

(** X8. What the methods leave alone. No method changes the process
    environment, the folder of the recipe or its [conan_data]. Only
    [export] writes the persisted store, only [package_id] changes the
    identity info and only [build_requirements] changes the declared
    requirements. [export], [source], [layout], [build] and [package]
    leave every attribute of the recipe object that the recipe reads or
    writes as it was, however they end. *)
Theorem method_footprint (m : method) (st : Session W) :
  environ (run m st).2 = environ st /\
  recipe_folder (self (run m st).2) = recipe_folder (self st) /\
  conan_data (self (run m st).2) = conan_data (self st) /\
  (m <> Export -> conandata_yml (run m st).2 = conandata_yml st) /\
  (m <> PackageId -> info (self (run m st).2) = info (self st)) /\
  (m <> BuildRequirements ->
   requirements (self (run m st).2) = requirements (self st)) /\
  (m = Export \/ m = Source \/ m = Layout \/ m = Build \/ m = Package ->
   self (run m st).2 = self st).
Proof.
  split; [apply run_keeps_environ|].
  split; [apply run_keeps_recipe_folder|].
  split; [apply run_keeps_conan_data|].
  split; [intros Hm; apply run_keeps_store; exact Hm|].
  split; [intros Hm; apply run_keeps_info; exact Hm|].
  split; [intros Hm; apply run_keeps_requirements; exact Hm|].
  intros Hm. apply run_keeps_self. exact Hm.
Qed.

End Footprint.

Lemma method_footprint_witness :
  (conandata_yml (run SetVersion Fake.example).2 = Fake.example_store /\
   info (self (run SetVersion Fake.example).2)
     = settings_info "gcc" "Release" /\
   requirements (self (run SetVersion Fake.example).2) = []) /\
  self (run Source Fake.unknown_commit).2 = self Fake.unknown_commit.
Proof.
  split.
  - destruct (method_footprint SetVersion Fake.example)
      as (_ & _ & _ & Hstore & Hinfo & Hreq & _).
    split; [apply Hstore; discriminate|].
    split; [apply Hinfo; discriminate|apply Hreq; discriminate].
  - destruct (method_footprint Source Fake.unknown_commit)
      as (_ & _ & _ & _ & _ & _ & Hself).
    apply Hself. right. left. reflexivity.
Defined.

(** *** What each method asks of the collaborators *)

Section Calls.

Context {W : Type} `{Collaborators W}.

(** X9. What the methods ask of the collaborators, however they end.
    [set_version] makes one call, the describe-tags query on the recipe's
    folder, and [export] makes one call, the url-and-commit query on the
    recipe's folder; [package_id] and [build_requirements] make none;
    [layout] makes one call, the layout step; [package] constructs the
    CMake helper and asks for the install step only when the constructor
    has succeeded. So none of them asks for a clone or a checkout. *)
Theorem method_calls (st : Session W) :
  calls (set_version st).2 =
    (calls st ++ [GitRun (recipe_folder (self st)) "describe --tags"])%list /\
  calls (export st).2 =
    (calls st ++ [GitGetUrlAndCommit (recipe_folder (self st))])%list /\
  calls (package_id st).2 = calls st /\
  calls (build_requirements st).2 = calls st /\
  calls (layout st).2 = (calls st ++ [CMakeLayout])%list /\
  calls (package st).2 =
    (calls st ++
       CMakeNew :: match cmake_new (world st) with
                   | inl _ => []
                   | inr _ => [CMakeInstall]
                   end)%list.
Proof.
  split; [|split; [|split; [|split; [|split]]]].
  - destruct (describe st) as [e|tag] eqn:Hq.
    + rewrite (set_version_raises st e Hq). reflexivity.
    + rewrite (set_version_returns st tag Hq). reflexivity.
  - rewrite export_unfold.
    destruct (captured st) as [e|[u c]]; [reflexivity|].
    unfold update_conandata.
    destruct (recursive_dict_update _ _); reflexivity.
  - reflexivity.
  - rewrite build_requirements_unfold.
    destruct (toggle st); reflexivity.
  - unfold layout, command. simpl.
    destruct (cmake_layout (world st)); reflexivity.
  - unfold package, bind, query, command. simpl.
    destruct (cmake_new (world st)) as [e|[]]; [reflexivity|]. simpl.
    destruct (cmake_install (world st)); simpl.
    rewrite <- app_assoc. reflexivity.
Qed.

End Calls.
